(** * GPTIA, number filtering page: normalisation, loading and the run

    Shallow embedding of [src/pages/NumberFiltering.tsx]: the phone number
    normaliser [validatePhoneNumber], the seeding of the record list
    [processPhoneNumbers], the text-file branch of [handleFileUpload],
    [removeNumber], the verification client [checkWhatsAppNumbers] with its
    simulator, the run [startProcessing], the cancellation handler
    [handleCancel] and the export [exportResults]; and the page as a
    whole, as the states these handlers lead to.

    The external collaborators (the libphonenumber-js parser, the HTTP edge
    function, the database and the random source) are parameters, and so is
    the text of the error the JavaScript engine raises: every theorem holds
    for all of them, and the closed examples fix them to small scripted
    ones. *)

From Stdlib Require Import String Ascii.
From stdpp Require Import base tactics option list.

Local Open Scope string_scope.
Local Open Scope nat_scope.

(** ** JavaScript values and exceptions *)

(** The values the field [hasWhatsApp] can hold at run time.  It is declared
    [boolean | null]; the types are erased at run time, and the assignment
    written at line 366 would store [result.status === 'valid' &&
    result.wa_id] in it, which is [false], [undefined] or the id string. *)
Inductive JsValue : Type :=
  | JsNull
  | JsUndefined
  | JsBool (b : bool)
  | JsString (s : string).

(** Truthiness, as tested by [filter(n => n.hasWhatsApp)]. *)
Definition truthy (v : JsValue) : bool :=
  match v with
  | JsBool b => b
  | JsString s => negb (String.eqb s "")
  | JsNull | JsUndefined => false
  end.

(** [a || b] where [a] is a string or [undefined]: the empty string is falsy
    as well. *)
Definition or_else (a : option string) (b : string) : string :=
  match a with
  | Some s => if String.eqb s "" then b else s
  | None => b
  end.

(** Truthiness of a string or [undefined]. *)
Definition opt_truthy (a : option string) : bool :=
  match a with
  | Some s => negb (String.eqb s "")
  | None => false
  end.

(** [s.replace('+', '')]: a string pattern replaces its first occurrence. *)
Fixpoint replace_plus (s : string) : string :=
  match s with
  | EmptyString => EmptyString
  | String c s' => if Ascii.eqb c "+"%char then s' else String c (replace_plus s')
  end.

(** [lines.join('\n')]. *)
Definition newline : string := String (ascii_of_nat 10) EmptyString.

Fixpoint join (sep : string) (l : list string) : string :=
  match l with
  | [] => ""
  | [x] => x
  | x :: l' => x ++ sep ++ join sep l'
  end.

(** A thrown value: an [Error] instance with its [name] and [message], or
    anything else (whose [message] property may be missing). *)
Inductive Thrown : Type :=
  | ThrownError (name message : string)
  | ThrownOther (message : option string).

Definition thrown_name_is (e : Thrown) (n : string) : bool :=
  match e with
  | ThrownError name _ => String.eqb name n
  | ThrownOther _ => false
  end.

(** [error.message], possibly [undefined]. *)
Definition thrown_message (e : Thrown) : option string :=
  match e with
  | ThrownError _ m => Some m
  | ThrownOther m => m
  end.

(** A computation that returns or throws. *)
Inductive Exc (A : Type) : Type :=
  | Ret (a : A)
  | Throw (e : Thrown).
Arguments Ret {A} a.
Arguments Throw {A} e.

Definition exc_bind {A B} (m : Exc A) (k : A -> Exc B) : Exc B :=
  match m with
  | Ret a => k a
  | Throw e => Throw e
  end.

Notation "x <-! m ; k" := (exc_bind m (fun x => k))
  (at level 100, m at next level, right associativity).

(** ** Data model *)

Definition CountryCode : Type := string.

Inductive Status : Type := Pending | Checking | Done | Error.

Definition Status_eqb (a b : Status) : bool :=
  match a, b with
  | Pending, Pending | Checking, Checking | Done, Done | Error, Error => true
  | _, _ => false
  end.

(** [interface PhoneNumber] (lines 7-15). *)
Record PhoneNumber : Type := mkPhoneNumber {
  number : string;
  hasWhatsApp : JsValue;
  status : Status;
  error : option string;
  normalizedNumber : option string;
  country : option CountryCode;
  isValid : option bool
}.

Inductive ResultStatus : Type := valid | invalid.

(** [interface ValidationResult] (lines 17-21). *)
Record ValidationResult : Type := mkValidationResult {
  input : string;
  result_status : ResultStatus;
  wa_id : option string
}.

(** [interface FilterSettings] (lines 23-30).  The numeric settings are
    whole numbers: the form stores [parseInt(...) || default]. *)
Record FilterSettings : Type := mkFilterSettings {
  batchSize : nat;
  delayBetweenBatches : nat;
  maxRetries : nat;
  retryDelay : nat;
  useMetaApi : bool;
  defaultCountryCode : CountryCode
}.

(** The initial [filterSettings] (lines 65-72). *)
Definition initialFilterSettings : FilterSettings :=
  {| batchSize := 20; delayBetweenBatches := 1000; maxRetries := 3;
     retryDelay := 2000; useMetaApi := true; defaultCountryCode := "CG" |}.

(** The result object of [validatePhoneNumber]. *)
Record Validation : Type := mkValidation {
  v_isValid : bool;
  v_normalized : option string;
  v_country : option CountryCode;
  v_error : option string
}.

(** ** The normaliser *)

(** What libphonenumber-js hands back: a [PhoneNumber] object, of which the
    code calls [isValid()] and [format('E.164')] and reads [country]. *)
Record ParsedNumber : Type := mkParsedNumber {
  pn_isValid : Exc bool;
  pn_format_E164 : Exc string;
  pn_country : option CountryCode
}.

(** [parsePhoneNumber(text)] and [parsePhoneNumber(text, defaultCountry)]:
    returns an object, returns [undefined], or throws. *)
Definition Parser : Type := string -> option CountryCode -> Exc (option ParsedNumber).

Section Normalizer.

Variable parsePhoneNumber : Parser.

(** The [try] block of [validatePhoneNumber] (lines 81-111). *)
Definition validatePhoneNumber_try (number : string) (countryCode : CountryCode)
  : Exc Validation :=
  phoneNumber <-! (if String.prefix "+" number
                   then parsePhoneNumber number None
                   else parsePhoneNumber number (Some countryCode)) ;
  match phoneNumber with
  | None =>
      Ret {| v_isValid := false; v_normalized := None; v_country := None;
             v_error := Some "Invalid phone number format" |}
  | Some phoneNumber =>
      ok <-! pn_isValid phoneNumber ;
      if negb ok then
        Ret {| v_isValid := false; v_normalized := None; v_country := None;
               v_error := Some "Phone number is not valid" |}
      else
        e164 <-! pn_format_E164 phoneNumber ;
        Ret {| v_isValid := true; v_normalized := Some e164;
               v_country := Some (or_else (pn_country phoneNumber) countryCode);
               v_error := None |}
  end.

(** The [catch] clause (lines 112-117). *)
Definition validatePhoneNumber_catch (e : Thrown) : Validation :=
  {| v_isValid := false; v_normalized := None; v_country := None;
     v_error := Some (match e with
                      | ThrownError _ message => message
                      | ThrownOther _ => "Validation failed"
                      end) |}.

(** [validatePhoneNumber] (lines 75-118). *)
Definition validatePhoneNumber (number : string) (countryCode : CountryCode)
  : Validation :=
  match validatePhoneNumber_try number countryCode with
  | Ret r => r
  | Throw e => validatePhoneNumber_catch e
  end.

(** [processPhoneNumbers] (lines 163-180): the new value of [numbers]. *)
Definition processPhoneNumbers (settings : FilterSettings) (phoneNumbers : list string)
  : list PhoneNumber :=
  map (fun number =>
         let validation := validatePhoneNumber number (defaultCountryCode settings) in
         {| number := number;
            normalizedNumber := v_normalized validation;
            country := v_country validation;
            isValid := Some (v_isValid validation);
            hasWhatsApp := JsNull;
            status := if v_isValid validation then Pending else Error;
            error := v_error validation |})
      phoneNumbers.

End Normalizer.


(** ** Records *)

(** [n.normalizedNumber || n.number]. *)
Definition canonical (n : PhoneNumber) : string :=
  or_else (normalizedNumber n) (number n).

(** ** The page state *)

(** A row of the upsert of lines 394-401, without its [validated_at] time
    stamp. *)
Record UpsertRow : Type := mkUpsertRow {
  phone_number : string;
  row_wa_id : string
}.

(** The calls a handler of the page makes to the collaborators: a
    verification request with its numbers, an upsert with its rows. *)
Inductive Event : Type :=
  | EvCheck (phoneNumbers : list string)
  | EvUpsert (rows : list UpsertRow).

Record AbortController : Type := mkAbortController { aborted : bool }.

(** The React state of the page that the handlers below touch, the ref, and
    the log of the calls made to the collaborators so far.  [pageError] is
    the state variable [error]. *)
Record State : Type := mkState {
  numbers : list PhoneNumber;
  isProcessing : bool;
  progress : nat;
  pageError : option string;
  validatedCount : nat;
  totalValidNumbers : nat;
  abortControllerRef : option AbortController;
  trace : list Event
}.

(** The page as it is mounted (lines 53-73). *)
Definition initialPage : State :=
  {| numbers := []; isProcessing := false; progress := 0; pageError := None;
     validatedCount := 0; totalValidNumbers := 0; abortControllerRef := None;
     trace := [] |}.

Definition setNumbers (f : list PhoneNumber -> list PhoneNumber) (s : State) : State :=
  {| numbers := f (numbers s); isProcessing := isProcessing s;
     progress := progress s; pageError := pageError s;
     validatedCount := validatedCount s;
     totalValidNumbers := totalValidNumbers s;
     abortControllerRef := abortControllerRef s; trace := trace s |}.

Definition setError (e : option string) (s : State) : State :=
  {| numbers := numbers s; isProcessing := isProcessing s;
     progress := progress s; pageError := e;
     validatedCount := validatedCount s;
     totalValidNumbers := totalValidNumbers s;
     abortControllerRef := abortControllerRef s; trace := trace s |}.

Definition setIsProcessing (b : bool) (s : State) : State :=
  {| numbers := numbers s; isProcessing := b;
     progress := progress s; pageError := pageError s;
     validatedCount := validatedCount s;
     totalValidNumbers := totalValidNumbers s;
     abortControllerRef := abortControllerRef s; trace := trace s |}.

(** [handleCancel] (lines 436-442). *)
Definition handleCancel (s : State) : State :=
  {| numbers := numbers s; isProcessing := false;
     progress := progress s; pageError := pageError s;
     validatedCount := validatedCount s;
     totalValidNumbers := totalValidNumbers s;
     abortControllerRef := match abortControllerRef s with
                           | Some _ => None
                           | None => abortControllerRef s
                           end;
     trace := trace s |}.

(** [exportResults] (lines 415-430): the text put in the downloaded file.
    The handler builds a [Blob] from it and clicks a temporary link; it
    calls no state setter. *)
Definition exportResults (s : State) : string :=
  join newline (map canonical (List.filter (fun n => truthy (hasWhatsApp n)) (numbers s))).

(** ** The verification client *)

(** What the HTTP call to the edge function does. *)
Inductive FetchOutcome : Type :=
  | FetchOk (results : list ValidationResult)
  | FetchNotOk
  | FetchRejects (e : Thrown).

(** The collaborators of the verification client.  Each answer may depend
    on the moment [t] of the call. *)
Record World : Type := mkWorld {
  fetch_check : nat -> list string -> FetchOutcome;
  select_valid : nat -> list string -> Exc (option (list (string * option string)));
  random_below_0_7 : nat -> nat -> bool
}.

(** [new Map()] filled with [set] in row order, then [get]. *)
Definition Map_get (rows : list (string * option string)) (key : string) : option string :=
  fold_left (fun acc row => if String.eqb (fst row) key then snd row else acc) rows None.

Section Engine.

Variable settings : FilterSettings.
Variable world : World.

(** One element of the [phoneNumbers.map] of [simulateWhatsAppCheck]
    (lines 244-261); [j] is its position in the request. *)
Definition simulateOne (t : nat) (rows : list (string * option string))
    (j : nat) (phone : string) : ValidationResult :=
  let waId := Map_get rows phone in
  if opt_truthy waId then
    {| input := phone; result_status := valid; wa_id := waId |}
  else
    let isValid := random_below_0_7 world t j in
    {| input := phone;
       result_status := if isValid then valid else invalid;
       wa_id := if isValid then Some (replace_plus phone) else None |}.

(** [simulateWhatsAppCheck] (lines 231-271). *)
Definition simulateWhatsAppCheck (t : nat) (phoneNumbers : list string)
  : Exc (list ValidationResult) :=
  match select_valid world t phoneNumbers with
  | Ret validNumbers =>
      Ret (imap (simulateOne t (default [] validNumbers)) phoneNumbers)
  | Throw error =>
      if thrown_name_is error "AbortError" then Ret [] else Throw error
  end.

(** [checkWhatsAppNumbers] (lines 195-229).  The simulator's promise is
    returned without being awaited, so its rejection passes through. *)
Definition checkWhatsAppNumbers (t : nat) (phoneNumbers : list string)
  : Exc (list ValidationResult) :=
  if negb (useMetaApi settings) then simulateWhatsAppCheck t phoneNumbers
  else
    match fetch_check world t phoneNumbers with
    | FetchOk results => Ret results
    | FetchNotOk => simulateWhatsAppCheck t phoneNumbers
    | FetchRejects error =>
        if thrown_name_is error "AbortError" then Ret []
        else simulateWhatsAppCheck t phoneNumbers
    end.

End Engine.

(** ** The run *)

(** The filter of line 275. *)
Definition eligible (numbers : list PhoneNumber) : list PhoneNumber :=
  List.filter (fun n => default false (isValid n) && negb (Status_eqb (status n) Error))
              numbers.

(** Lines 282-287: the updates before the [try] block. *)
Definition beginRun (s : State) : State :=
  {| numbers := numbers s; isProcessing := true; progress := 0;
     pageError := None; validatedCount := 0; totalValidNumbers := 0;
     abortControllerRef := Some {| aborted := false |}; trace := trace s |}.

(** What the engine throws when a [let] or [const] binding is read before
    its initialisation: a [ReferenceError].  Its message is the engine's
    own. *)
Definition uninitialised (engineMessage : string) : Thrown :=
  ThrownError "ReferenceError" engineMessage.

(** The [try] block of [startProcessing] (lines 289-405).

    Its first statement, [const totalNumbers = validNumbers.length] (line
    290), reads [validNumbers].  The block declares a [const validNumbers]
    of its own at line 392, after the loop, and a [const] is in scope in the
    whole of its block: the [validNumbers] of lines 290, 297 and 302 is that
    inner binding, not the snapshot of line 275, and line 290 reads it
    before it is initialised.  So the first statement throws, and nothing
    of lines 291-404 (the batch loop, the retry loop, the three updaters of
    the record list, the save) is ever executed. *)
Definition startProcessing_try (engineMessage : string) (s : State) : Exc State :=
  Throw (uninitialised engineMessage).

(** The [catch] clause (lines 406-408). *)
Definition startProcessing_catch (error : Thrown) (s : State) : State :=
  setError (Some (or_else (thrown_message error) "An error occurred during processing")) s.

(** The [finally] clause (lines 409-412). *)
Definition endRun (s : State) : State :=
  {| numbers := numbers s; isProcessing := false; progress := progress s;
     pageError := pageError s; validatedCount := validatedCount s;
     totalValidNumbers := totalValidNumbers s;
     abortControllerRef := None; trace := trace s |}.

(** [startProcessing] (lines 273-413).  It is an [async] function: its body
    runs without interruption up to its first [await], and it reaches none,
    so that the whole of it has run when the caller gets control back. *)
Definition startProcessing (engineMessage : string) (s : State) : State :=
  let validNumbers := eligible (numbers s) in
  if decide (length validNumbers = 0) then
    setError (Some "No valid phone numbers to process") s
  else
    let s1 := beginRun s in
    endRun match startProcessing_try engineMessage s1 with
           | Ret s2 => s2
           | Throw error => startProcessing_catch error s1
           end.

(** The number of verification requests in a log, and the numbers it has
    persisted. *)
Definition attempts (log : list Event) : nat :=
  length (List.filter (fun e => match e with EvCheck _ => true | _ => false end) log).


(** ** The rest of the page *)

(** [removeNumber] (lines 432-434): the updater
    [prev => prev.filter((_, i) => i !== index)]. *)
Definition removeNumber (index : nat) (prev : list PhoneNumber) : list PhoneNumber :=
  map snd (List.filter (fun ix => negb (Nat.eqb (fst ix) index))
                       (imap (fun i n => (i, n)) prev)).

(** ** Loading a text file

    Strings are read as sequences of code units below 256, as everywhere in
    this development. *)

Definition LF : ascii := ascii_of_nat 10.
Definition CR : ascii := ascii_of_nat 13.

(** The white space and line terminators that [trim] removes, among the code
    units below 256: TAB, LF, VT, FF, CR, SP and NBSP. *)
Definition isWhiteSpace (c : ascii) : bool :=
  let n := nat_of_ascii c in
  (Nat.leb 9 n && Nat.leb n 13) || Nat.eqb n 32 || Nat.eqb n 160.

Fixpoint trimStart (s : string) : string :=
  match s with
  | EmptyString => EmptyString
  | String c rest => if isWhiteSpace c then trimStart rest else s
  end.

Fixpoint trimEnd (s : string) : string :=
  match s with
  | EmptyString => EmptyString
  | String c rest =>
      match trimEnd rest with
      | EmptyString => if isWhiteSpace c then EmptyString else String c EmptyString
      | rest' => String c rest'
      end
  end.

(** [line.trim()]. *)
Definition trim (s : string) : string := trimEnd (trimStart s).

(** Put a code unit in front of the first line. *)
Definition consLine (c : ascii) (lines : list string) : list string :=
  match lines with
  | line :: more => String c line :: more
  | [] => [String c EmptyString]
  end.

(** [text.split(/\r?\n/)] (line 130): the text is cut at every LF, and a CR
    directly before the LF goes with it; the text after the last cut is the
    last line, so there is always at least one line. *)
Fixpoint splitLines (text : string) : list string :=
  match text with
  | EmptyString => [EmptyString]
  | String c rest =>
      if Ascii.eqb c LF then EmptyString :: splitLines rest
      else
        match rest with
        | String c' rest' =>
            if Ascii.eqb c CR && Ascii.eqb c' LF then EmptyString :: splitLines rest'
            else consLine c (splitLines rest)
        | EmptyString => consLine c (splitLines rest)
        end
  end.

(** Lines 130-133: the phone numbers of a text file. *)
Definition phoneNumbersOfText (text : string) : list string :=
  List.filter (fun line => Nat.ltb 0 (String.length line))
              (map (fun line => trim line) (splitLines text)).

(** The [text/plain] branch of [handleFileUpload] (lines 128-135): the records
    put on the page. *)
Definition handleFileUpload_text (parser : Parser) (settings : FilterSettings)
    (text : string) : list PhoneNumber :=
  processPhoneNumbers parser settings (phoneNumbersOfText text).

(** A string without LF. *)
Fixpoint singleLine (s : string) : bool :=
  match s with
  | EmptyString => true
  | String c rest => negb (Ascii.eqb c LF) && singleLine rest
  end.

(** A string that can stand on a line of its own: not empty, with no white
    space at either end and no LF inside. *)
Definition cleanLine (s : string) : bool :=
  Nat.ltb 0 (String.length s) && String.eqb (trim s) s && singleLine s.

(** ** The page as a whole *)

(** What the user can do to the state above.  [Load] is
    [processPhoneNumbers], which the text-file branch of [handleFileUpload]
    and [handleCSVMapping] call with the strings they have read and the
    settings of the moment; [Report] is a [setError] of the CSV handlers
    (lines 156 and 184); [Export] is [exportResults], which calls no
    setter. *)
Inductive Action : Type :=
  | Load (settings : FilterSettings) (phoneNumbers : list string)
  | Remove (index : nat)
  | Start
  | Cancel
  | Export
  | Report (message : string).

Definition perform (parser : Parser) (engineMessage : string) (a : Action) (s : State)
  : State :=
  match a with
  | Load settings phoneNumbers =>
      setNumbers (fun _ => processPhoneNumbers parser settings phoneNumbers) s
  | Remove index => setNumbers (removeNumber index) s
  | Start => startProcessing engineMessage s
  | Cancel => handleCancel s
  | Export => s
  | Report message => setError (Some message) s
  end.

(** The state of the page after a sequence of actions. *)
Definition pageAfter (parser : Parser) (engineMessage : string) (actions : list Action)
  : State :=
  fold_left (fun s a => perform parser engineMessage a s) actions initialPage.

(** A record as [processPhoneNumbers] makes it: no answer yet, [Pending] if
    it is valid and [Error] if it is not. *)
Definition asSeeded (n : PhoneNumber) : Prop :=
  hasWhatsApp n = JsNull
  /\ ((isValid n = Some true /\ status n = Pending)
      \/ (isValid n = Some false /\ status n = Error)).


(** The export as the specification words it: the canonical numbers of the
    records with [reachable == true], in list order.  The canonical number
    of a record is its E.164 form, absent when normalisation failed. *)
Fixpoint exportReachable (records : list PhoneNumber) : list string :=
  match records with
  | [] => []
  | r :: rest =>
      match hasWhatsApp r, normalizedNumber r with
      | JsBool true, Some c => c :: exportReachable rest
      | _, _ => exportReachable rest
      end
  end.

(** A record whose [hasWhatsApp] is of its declared type [boolean | null]
    and which, if the answer is [true], has a canonical number. *)
Definition exportable (n : PhoneNumber) : Prop :=
  match hasWhatsApp n with
  | JsNull | JsBool false => True
  | JsBool true => exists c, normalizedNumber n = Some c /\ c <> ""
  | JsUndefined | JsString _ => False
  end.

(** ** Scripted collaborators for the closed examples *)

(** A parser that answers as libphonenumber-js does on the strings of the
    examples: a Senegalese mobile number, a French one, an Inmarsat number
    (valid, with no country), and text that is no number. *)
Definition scriptedParser : Parser := fun text _ =>
  if String.eqb text "+221771234567" then
    Ret (Some {| pn_isValid := Ret true; pn_format_E164 := Ret text;
                 pn_country := Some "SN" |})
  else if String.eqb text "+33612345678" then
    Ret (Some {| pn_isValid := Ret true; pn_format_E164 := Ret text;
                 pn_country := Some "FR" |})
  else if String.eqb text "+870773111632" then
    Ret (Some {| pn_isValid := Ret true; pn_format_E164 := Ret text;
                 pn_country := None |})
  else Throw (ThrownError "ParseError" "NOT_A_NUMBER").

(** The message of V8 for the read of line 290. *)
Definition v8Message : string := "Cannot access 'validNumbers' before initialization".

(** The page once [raws] have been loaded. *)
Definition loadedPage (settings : FilterSettings) (raws : list string) : State :=
  {| numbers := processPhoneNumbers scriptedParser settings raws;
     isProcessing := false; progress := 0; pageError := None;
     validatedCount := 0; totalValidNumbers := 0;
     abortControllerRef := None; trace := [] |}.

(** A record list with answers in it: two numbers on WhatsApp, one not, and
    one invalid line. *)
Definition storeWithAnswers : State :=
  {| numbers :=
       [ {| number := "+221771234567"; hasWhatsApp := JsBool true; status := Done;
            error := None; normalizedNumber := Some "+221771234567";
            country := Some "SN"; isValid := Some true |};
         {| number := "notanumber"; hasWhatsApp := JsNull; status := Error;
            error := Some "NOT_A_NUMBER"; normalizedNumber := None;
            country := None; isValid := Some false |};
         {| number := "+870773111632"; hasWhatsApp := JsBool false; status := Done;
            error := Some "Not on WhatsApp"; normalizedNumber := Some "+870773111632";
            country := Some "CG"; isValid := Some true |};
         {| number := "+33612345678"; hasWhatsApp := JsBool true; status := Done;
            error := None; normalizedNumber := Some "+33612345678";
            country := Some "FR"; isValid := Some true |} ];
     isProcessing := false; progress := 0; pageError := None;
     validatedCount := 0; totalValidNumbers := 0;
     abortControllerRef := None; trace := [] |}.

(** The edge function is down and so is the database. *)
Definition worldDown : World :=
  {| fetch_check := fun _ _ => FetchNotOk;
     select_valid := fun _ _ => Throw (ThrownError "Error" "db down");
     random_below_0_7 := fun _ _ => true |}.

(** The table of valid numbers knows the Senegalese number; the random source
    says no to every other one. *)
Definition worldKnownNumber : World :=
  {| fetch_check := fun _ _ => FetchNotOk;
     select_valid := fun _ _ => Ret (Some [("+221771234567", Some "221771234567")]);
     random_below_0_7 := fun _ _ => false |}.

Local Open Scope list_scope.

(** ** The normaliser: results *)

Lemma validatePhoneNumber_cases (parser : Parser) (number : string) (cc : CountryCode) :
  (exists pn e164,
      (if String.prefix "+" number then parser number None
       else parser number (Some cc)) = Ret (Some pn)
      /\ pn_isValid pn = Ret true /\ pn_format_E164 pn = Ret e164
      /\ validatePhoneNumber parser number cc =
         {| v_isValid := true; v_normalized := Some e164;
            v_country := Some (or_else (pn_country pn) cc); v_error := None |})
  \/ (exists msg,
      validatePhoneNumber parser number cc =
      {| v_isValid := false; v_normalized := None; v_country := None;
         v_error := Some msg |}).
Proof.
  unfold validatePhoneNumber, validatePhoneNumber_try, validatePhoneNumber_catch.
  destruct (if String.prefix "+" number then _ else _) as [[pn|]|e] eqn:Hparse;
    simpl; [|right; eauto..].
  destruct (pn_isValid pn) as [[|]|e] eqn:Hvalid; simpl; [|right; eauto..].
  destruct (pn_format_E164 pn) as [e164|e] eqn:Hformat; simpl; [|right; eauto].
  left. exists pn, e164. auto.
Qed.

(** C10. The normaliser never lets an exception out: whatever the parser does
    (return an object, return nothing, throw, or hand back an object whose
    methods throw), [validatePhoneNumber] returns a result object; an
    exception raised in its [try] block becomes the result of the [catch]
    clause, and every result that is not valid carries [isValid = false]
    and an error message. *)
Theorem validatePhoneNumber_total (parser : Parser) (number : string) (cc : CountryCode) :
  (forall e, validatePhoneNumber_try parser number cc = Throw e ->
     validatePhoneNumber parser number cc = validatePhoneNumber_catch e
     /\ v_isValid (validatePhoneNumber parser number cc) = false
     /\ exists msg, v_error (validatePhoneNumber parser number cc) = Some msg)
  /\ (v_isValid (validatePhoneNumber parser number cc) = true
      \/ (v_isValid (validatePhoneNumber parser number cc) = false
          /\ v_normalized (validatePhoneNumber parser number cc) = None
          /\ exists msg, v_error (validatePhoneNumber parser number cc) = Some msg)).
Proof.
  split.
  - intros e He. unfold validatePhoneNumber. rewrite He. simpl. eauto.
  - destruct (validatePhoneNumber_cases parser number cc)
      as [(pn & e164 & _ & _ & _ & ->)|[msg ->]]; simpl; eauto.
Qed.

Lemma validatePhoneNumber_plus_ext (parser parser' : Parser) number cc :
  String.prefix "+" number = true ->
  parser' number None = parser number None ->
  validatePhoneNumber parser' number cc = validatePhoneNumber parser number cc.
Proof.
  intros Hplus Hsame. unfold validatePhoneNumber, validatePhoneNumber_try.
  by rewrite Hplus, Hsame.
Qed.

(** C6, amended. For a number that begins with [+] the parser is called
    without a region (the result depends on the parser through that one
    call), so validity, canonical form and error message are the same for
    every default region; the resolved country is the same too whenever the
    parser infers one, and is the default region only when the parser infers
    none. *)
Theorem plus_prefix_ignores_default_region
    (parser : Parser) (number : string) (cc1 cc2 : CountryCode) :
  String.prefix "+" number = true ->
  let r1 := validatePhoneNumber parser number cc1 in
  let r2 := validatePhoneNumber parser number cc2 in
  v_isValid r1 = v_isValid r2
  /\ v_normalized r1 = v_normalized r2
  /\ v_error r1 = v_error r2
  /\ (v_country r1 = v_country r2
      \/ exists pn, parser number None = Ret (Some pn)
           /\ opt_truthy (pn_country pn) = false
           /\ v_country r1 = Some cc1 /\ v_country r2 = Some cc2)
  /\ (forall parser' : Parser,
        parser' number None = parser number None ->
        validatePhoneNumber parser' number cc1 = r1).
Proof.
  intros Hplus r1 r2.
  assert (H : v_isValid r1 = v_isValid r2
              /\ v_normalized r1 = v_normalized r2
              /\ v_error r1 = v_error r2
              /\ (v_country r1 = v_country r2
                  \/ exists pn, parser number None = Ret (Some pn)
                       /\ opt_truthy (pn_country pn) = false
                       /\ v_country r1 = Some cc1 /\ v_country r2 = Some cc2)).
  { unfold r1, r2, validatePhoneNumber, validatePhoneNumber_try. rewrite Hplus.
    destruct (parser number None) as [[pn|]|e] eqn:Hparse; simpl; [|by auto..].
    destruct (pn_isValid pn) as [[|]|e]; simpl; [|by auto..].
    destruct (pn_format_E164 pn) as [e164|e]; simpl; [|by auto].
    repeat split.
    destruct (pn_country pn) as [c|] eqn:Hc; simpl.
    - destruct (String.eqb c "") eqn:Hempty; [|by left].
      right. exists pn. rewrite Hc. simpl. rewrite Hempty. auto.
    - right. exists pn. rewrite Hc. auto. }
  destruct H as (H1 & H2 & H3 & H4). repeat split; try done.
  intros parser'. by apply validatePhoneNumber_plus_ext.
Qed.

(** A Senegalese number under two default regions. *)
Lemma plus_prefix_ignores_default_region_witness :
  v_normalized (validatePhoneNumber scriptedParser "+221771234567" "CG")
  = v_normalized (validatePhoneNumber scriptedParser "+221771234567" "FR").
Proof.
  exact (proj1 (proj2 (plus_prefix_ignores_default_region
                         scriptedParser "+221771234567" "CG" "FR" eq_refl))).
Defined.

(** C6 as stated fails: a valid number for which the parser resolves no
    country (an Inmarsat number) gets the default region as its country, so
    two default regions give two results. *)
Lemma plus_prefix_country_follows_default :
  String.prefix "+" "+870773111632" = true
  /\ validatePhoneNumber scriptedParser "+870773111632" "CG"
     = {| v_isValid := true; v_normalized := Some "+870773111632";
          v_country := Some "CG"; v_error := None |}
  /\ validatePhoneNumber scriptedParser "+870773111632" "SN"
     = {| v_isValid := true; v_normalized := Some "+870773111632";
          v_country := Some "SN"; v_error := None |}
  /\ validatePhoneNumber scriptedParser "+870773111632" "CG"
     <> validatePhoneNumber scriptedParser "+870773111632" "SN".
Proof. repeat split; vm_compute; discriminate. Qed.

(** A parser that throws. *)
Lemma validatePhoneNumber_total_witness :
  validatePhoneNumber scriptedParser "notanumber" "CG"
  = validatePhoneNumber_catch (ThrownError "ParseError" "NOT_A_NUMBER")
  /\ v_isValid (validatePhoneNumber scriptedParser "notanumber" "CG") = false
  /\ exists msg, v_error (validatePhoneNumber scriptedParser "notanumber" "CG") = Some msg.
Proof.
  exact (proj1 (validatePhoneNumber_total scriptedParser "notanumber" "CG")
               (ThrownError "ParseError" "NOT_A_NUMBER") eq_refl).
Defined.

(** ** Seeding, the verification client, removal and text files *)

Lemma eligible_elem_of numbers n :
  n ∈ eligible numbers
  <-> n ∈ numbers /\ isValid n = Some true /\ status n <> Error.
Proof.
  unfold eligible. rewrite !list_elem_of_In, filter_In.
  destruct (isValid n) as [[|]|], (status n); simpl; intuition congruence.
Qed.

(** *** Seeding *)


(** *** The verification client *)

(** X4. An attempt fails only when the lookup in the table of valid numbers
    fails: [checkWhatsAppNumbers] rejects exactly when that query rejects
    with something other than an abort, which it reaches when the Meta API
    is switched off or its call did not succeed.  A failing HTTP call alone
    never fails the attempt, an aborted call resolves to the empty list, and
    the answer of a successful call is handed on as it is. *)
Theorem verification_fails_only_when_lookup_fails settings world t phoneNumbers :
  (forall e,
     checkWhatsAppNumbers settings world t phoneNumbers = Throw e
     <-> select_valid world t phoneNumbers = Throw e
         /\ thrown_name_is e "AbortError" = false
         /\ (useMetaApi settings = false
             \/ fetch_check world t phoneNumbers = FetchNotOk
             \/ exists e', fetch_check world t phoneNumbers = FetchRejects e'
                  /\ thrown_name_is e' "AbortError" = false))
  /\ (forall results,
        useMetaApi settings = true ->
        fetch_check world t phoneNumbers = FetchOk results ->
        checkWhatsAppNumbers settings world t phoneNumbers = Ret results)
  /\ (forall e',
        useMetaApi settings = true ->
        fetch_check world t phoneNumbers = FetchRejects e' ->
        thrown_name_is e' "AbortError" = true ->
        checkWhatsAppNumbers settings world t phoneNumbers = Ret []).
Proof.
  assert (Hsim : forall e,
            simulateWhatsAppCheck world t phoneNumbers = Throw e
            <-> select_valid world t phoneNumbers = Throw e
                /\ thrown_name_is e "AbortError" = false).
  { intros e. unfold simulateWhatsAppCheck.
    destruct (select_valid world t phoneNumbers) as [rows|e0].
    - split; [done|]. by intros [? _].
    - destruct (thrown_name_is e0 "AbortError") eqn:Hab.
      + split; [done|]. intros [[= <-] He]. congruence.
      + split; [by intros [= <-]|]. by intros [[= <-] _]. }
  split; [|split].
  - intros e. unfold checkWhatsAppNumbers.
    destruct (useMetaApi settings); simpl.
    + destruct (fetch_check world t phoneNumbers) as [results| |e0] eqn:Hfetch.
      * split; [done|].
        intros (_ & _ & [|[|(e' & He' & _)]]); congruence.
      * rewrite Hsim. split; [intros [? ?]; auto|]. by intros (? & ? & _).
      * destruct (thrown_name_is e0 "AbortError") eqn:Hab.
        -- split; [done|]. intros (_ & _ & [|[|(e' & [= <-] & He')]]); congruence.
        -- rewrite Hsim. split.
           ++ intros [? ?]. repeat split; [done..|]. right. right. eauto.
           ++ by intros (? & ? & _).
    + rewrite Hsim. split; [intros [? ?]; auto|]. by intros (? & ? & _).
  - intros results Hapi Hfetch. unfold checkWhatsAppNumbers. by rewrite Hapi, Hfetch.
  - intros e' Hapi Hfetch Hab. unfold checkWhatsAppNumbers.
    by rewrite Hapi, Hfetch, Hab.
Qed.

(** The edge function is down and the table of valid numbers cannot be
    read. *)
Lemma verification_fails_only_when_lookup_fails_witness :
  checkWhatsAppNumbers initialFilterSettings worldDown 0 ["+221771234567"]
  = Throw (ThrownError "Error" "db down").
Proof.
  apply (proj1 (verification_fails_only_when_lookup_fails
                  initialFilterSettings worldDown 0 ["+221771234567"])).
  split; [reflexivity|]. split; [reflexivity|]. right. by left.
Defined.

Lemma input_imap_simulateOne world t rows phoneNumbers (k : nat) :
  map input (imap (fun j => simulateOne world t rows (k + j)) phoneNumbers) = phoneNumbers.
Proof.
  revert k. induction phoneNumbers as [|phone phoneNumbers IH]; intros k; [done|].
  rewrite imap_cons. simpl. f_equal.
  - unfold simulateOne. by repeat case_match.
  - rewrite <- (IH (S k)) at 2. f_equal. apply imap_ext.
    intros j x _. simpl. f_equal. lia.
Qed.

(** X5. The simulator answers about exactly the numbers it is asked about,
    once each and in order.  A number found in the table of valid numbers
    with a non-empty id is reported valid with that id, whatever the random
    source says; an entry is reported valid only together with an id.  If
    the query is aborted the simulator resolves to the empty list, and it
    rejects with any other error of the query. *)
Theorem simulator_answers_each_number world t phoneNumbers :
  (forall rows,
     select_valid world t phoneNumbers = Ret rows ->
     exists results,
       simulateWhatsAppCheck world t phoneNumbers = Ret results
       /\ map input results = phoneNumbers
       /\ Forall (fun r => result_status r = valid <-> exists id, wa_id r = Some id) results
       /\ (forall j phone id,
             phoneNumbers !! j = Some phone ->
             Map_get (default [] rows) phone = Some id -> id <> "" ->
             results !! j
             = Some {| input := phone; result_status := valid; wa_id := Some id |}))
  /\ (forall e,
        select_valid world t phoneNumbers = Throw e ->
        simulateWhatsAppCheck world t phoneNumbers
        = if thrown_name_is e "AbortError" then Ret [] else Throw e).
Proof.
  split.
  - intros rows Hrows. unfold simulateWhatsAppCheck. rewrite Hrows.
    eexists. split; [reflexivity|]. split; [|split].
    + apply (input_imap_simulateOne world t (default [] rows) phoneNumbers 0).
    + apply Forall_forall. intros r Hr.
      apply list_elem_of_lookup in Hr as [j Hj].
      rewrite list_lookup_imap in Hj.
      destruct (phoneNumbers !! j) as [phone|]; [|done]. simpl in Hj.
      injection Hj as <-. unfold simulateOne.
      destruct (Map_get (default [] rows) phone) as [id|] eqn:Hget; simpl.
      * destruct (negb (String.eqb id "")); simpl; [split; by eauto|].
        destruct (random_below_0_7 world t j); simpl.
        -- split; by eauto.
        -- split; [done|]. by intros [? ?].
      * destruct (random_below_0_7 world t j); simpl.
        -- split; by eauto.
        -- split; [done|]. by intros [? ?].
    + intros j phone id Hj Hget Hid. rewrite list_lookup_imap, Hj. simpl.
      unfold simulateOne. rewrite Hget. simpl.
      destruct (String.eqb id "") eqn:He; [by apply String.eqb_eq in He|done].
  - intros e He. unfold simulateWhatsAppCheck. by rewrite He.
Qed.

(** The table knows the first of two numbers. *)
Lemma simulator_answers_each_number_witness :
  exists results,
    simulateWhatsAppCheck worldKnownNumber 0 ["+221771234567"; "+33612345678"]
    = Ret results
    /\ map input results = ["+221771234567"; "+33612345678"].
Proof.
  destruct (proj1 (simulator_answers_each_number worldKnownNumber 0
                     ["+221771234567"; "+33612345678"])
                  (Some [("+221771234567", Some "221771234567")]) eq_refl)
    as (results & Hsim & Hin & _).
  exists results. by split.
Defined.

(** *** Removing a record *)

Lemma removeNumber_from (o index : nat) (prev : list PhoneNumber) :
  map snd (List.filter (fun ix => negb (Nat.eqb (fst ix) index))
                       (imap (fun i n => (o + i, n)) prev))
  = if decide (index < o) then prev
    else take (index - o) prev ++ drop (S (index - o)) prev.
Proof.
  revert o. induction prev as [|n prev IH]; intros o.
  - simpl. destruct (decide _); [done|]. by destruct (index - o).
  - rewrite imap_cons.
    rewrite (imap_ext _ (fun i n => (S o + i, n)))
      by (intros i x _; simpl; f_equal; lia).
    cbn [List.filter fst]. replace (o + 0) with o by lia.
    specialize (IH (S o)).
    assert (Hif : forall (b : bool) (x : nat * PhoneNumber) l,
              map snd (if b then x :: l else l)
              = if b then snd x :: map snd l else map snd l)
      by (by intros []).
    rewrite Hif, IH. cbn [snd].
    destruct (decide (index < o)) as [Hlt|Hge].
    + rewrite decide_True by lia.
      by replace (Nat.eqb o index) with false by (symmetry; apply Nat.eqb_neq; lia).
    + destruct (decide (o = index)) as [->|Hne].
      * rewrite Nat.eqb_refl. rewrite decide_True by lia.
        by rewrite Nat.sub_diag.
      * replace (Nat.eqb o index) with false by (symmetry; by apply Nat.eqb_neq).
        rewrite decide_False by lia.
        by replace (index - o) with (S (index - S o)) by lia.
Qed.

(** X7. [removeNumber(index)] takes exactly the record at [index] out of the
    list: the records before it stay where they are, the records after it
    move up by one place, and an index past the end of the list removes
    nothing. *)
Theorem removeNumber_takes_one_record_out index (prev : list PhoneNumber) :
  removeNumber index prev = take index prev ++ drop (S index) prev
  /\ (forall j, j < index -> removeNumber index prev !! j = prev !! j)
  /\ (forall j, index <= j -> removeNumber index prev !! j = prev !! (S j))
  /\ (index < length prev -> length (removeNumber index prev) = length prev - 1)
  /\ (length prev <= index -> removeNumber index prev = prev).
Proof.
  assert (H : removeNumber index prev = take index prev ++ drop (S index) prev).
  { pose proof (removeNumber_from 0 index prev) as H0.
    rewrite decide_False, Nat.sub_0_r in H0 by lia. exact H0. }
  split; [done|]. rewrite H, <- delete_take_drop.
  split; [intros j Hj; by apply list_lookup_delete_lt|].
  split; [intros j Hj; by apply list_lookup_delete_ge|].
  split.
  - intros Hlt. rewrite length_delete; [done|]. by apply lookup_lt_is_Some.
  - intros Hge. rewrite delete_take_drop.
    by rewrite take_ge, drop_ge, app_nil_r by lia.
Qed.

(** The second of three records is removed. *)
Lemma removeNumber_takes_one_record_out_witness :
  map number
    (removeNumber 1 (numbers (loadedPage initialFilterSettings
                       ["+221771234567"; "notanumber"; "+33612345678"])))
  = ["+221771234567"; "+33612345678"].
Proof.
  rewrite (proj1 (removeNumber_takes_one_record_out 1
             (numbers (loadedPage initialFilterSettings
                ["+221771234567"; "notanumber"; "+33612345678"])))).
  reflexivity.
Defined.

(** *** Loading a text file *)

Lemma splitLines_eq c rest :
  splitLines (String c rest) =
  if Ascii.eqb c LF then EmptyString :: splitLines rest
  else
    match rest with
    | String c' rest' =>
        if Ascii.eqb c CR && Ascii.eqb c' LF then EmptyString :: splitLines rest'
        else consLine c (splitLines rest)
    | EmptyString => consLine c (splitLines rest)
    end.
Proof. reflexivity. Qed.

Lemma trimEnd_eq c rest :
  trimEnd (String c rest) =
  match trimEnd rest with
  | EmptyString => if isWhiteSpace c then EmptyString else String c EmptyString
  | rest' => String c rest'
  end.
Proof. reflexivity. Qed.

Lemma trimEnd_idem z : trimEnd (trimEnd z) = trimEnd z.
Proof.
  induction z as [|c r IH]; [done|]. rewrite trimEnd_eq.
  destruct (trimEnd r) as [|d r'] eqn:Hr.
  - destruct (isWhiteSpace c) eqn:Hc; [done|]. rewrite trimEnd_eq. simpl. by rewrite Hc.
  - rewrite trimEnd_eq. by rewrite IH.
Qed.

(** A string that [trimEnd] leaves alone does not end in white space, and
    its tail is left alone as well. *)
Lemma trimEnd_fixed c r :
  trimEnd (String c r) = String c r ->
  match r with
  | EmptyString => isWhiteSpace c = false
  | String _ _ => trimEnd r = r
  end.
Proof.
  rewrite trimEnd_eq. destruct r as [|d r'].
  - simpl. by destruct (isWhiteSpace c).
  - destruct (trimEnd (String d r')) as [|d' r''].
    + by destruct (isWhiteSpace c).
    + by intros [= -> ->].
Qed.

Lemma trimEnd_head z d w : trimEnd z = String d w -> exists z', z = String d z'.
Proof.
  destruct z as [|c r]; [done|]. rewrite trimEnd_eq.
  destruct (trimEnd r); [destruct (isWhiteSpace c)|]; intros [= <- _]; eauto; done.
Qed.

Lemma trimStart_head y d z : trimStart y = String d z -> isWhiteSpace d = false.
Proof.
  induction y as [|c r IH]; [done|]. simpl.
  destruct (isWhiteSpace c) eqn:Hc; [done|]. by intros [= <- _].
Qed.

Lemma trim_idem y : trim (trim y) = trim y.
Proof.
  unfold trim. destruct (trimEnd (trimStart y)) as [|d w] eqn:Hw; [done|].
  destruct (trimEnd_head _ _ _ Hw) as [z' Hz].
  apply trimStart_head in Hz. simpl. rewrite Hz, <- Hw. apply trimEnd_idem.
Qed.

Lemma singleLine_trimStart y : singleLine y = true -> singleLine (trimStart y) = true.
Proof.
  induction y as [|c r IH]; [done|]. intros H. simpl.
  destruct (isWhiteSpace c); [|done].
  simpl in H. apply andb_true_iff in H as [_ H]. by apply IH.
Qed.

Lemma singleLine_trimEnd z : singleLine z = true -> singleLine (trimEnd z) = true.
Proof.
  induction z as [|c r IH]; [done|]. intros H. rewrite trimEnd_eq.
  simpl in H. apply andb_true_iff in H as [Hc Hr]. specialize (IH Hr).
  destruct (trimEnd r) as [|d r'].
  - destruct (isWhiteSpace c); [done|]. simpl. by rewrite Hc.
  - change (singleLine (String c (String d r')))
      with (negb (Ascii.eqb c LF) && singleLine (String d r')).
    by rewrite Hc, IH.
Qed.

Lemma consLine_singleLine c lines :
  Ascii.eqb c LF = false ->
  Forall (fun y => singleLine y = true) lines ->
  Forall (fun y => singleLine y = true) (consLine c lines).
Proof.
  intros Hc [|y lines' Hy Hlines]; simpl.
  - apply Forall_singleton. simpl. by rewrite Hc.
  - constructor; [|done]. simpl. by rewrite Hc.
Qed.

Lemma splitLines_singleLine text :
  Forall (fun y => singleLine y = true) (splitLines text).
Proof.
  assert (H : Forall (fun y => singleLine y = true) (splitLines text)
              /\ forall c, Forall (fun y => singleLine y = true)
                             (splitLines (String c text))); [|by destruct H].
  induction text as [|c' rest' [IH1 IH2]].
  - split; [by apply Forall_singleton|]. intros c. rewrite splitLines_eq.
    destruct (Ascii.eqb c LF) eqn:Hc.
    + by repeat constructor.
    + apply consLine_singleLine; [done|]. by apply Forall_singleton.
  - split; [apply IH2|]. intros c. rewrite splitLines_eq.
    destruct (Ascii.eqb c LF) eqn:Hc; [constructor; [done|apply IH2]|].
    destruct (Ascii.eqb c CR && Ascii.eqb c' LF); [by constructor|].
    apply consLine_singleLine; [done|apply IH2].
Qed.

(** A line that has no LF and does not end in white space, followed by a
    line break, is cut off as it is. *)
Lemma splitLines_line x rest :
  singleLine x = true -> trimEnd x = x ->
  splitLines (x ++ String LF rest)%string = x :: splitLines rest.
Proof.
  induction x as [|c x' IH]; intros Hline Hfixed; [done|].
  simpl in Hline. apply andb_true_iff in Hline as [Hc Hline].
  apply negb_true_iff in Hc.
  apply trimEnd_fixed in Hfixed.
  change (String c x' ++ String LF rest)%string
    with (String c (x' ++ String LF rest)%string).
  rewrite splitLines_eq, Hc. destruct x' as [|c' x''].
  - change ("" ++ String LF rest)%string with (String LF rest).
    assert (Hcr : Ascii.eqb c CR = false).
    { destruct (Ascii.eqb c CR) eqn:Hcr; [|done].
      apply Ascii.eqb_eq in Hcr. by rewrite Hcr in Hfixed. }
    cbv beta match. rewrite Hcr. simpl andb. cbv beta match. by rewrite splitLines_eq.
  - change (String c' x'' ++ String LF rest)%string
      with (String c' (x'' ++ String LF rest)%string).
    assert (Hc' : Ascii.eqb c' LF = false).
    { simpl in Hline. apply andb_true_iff in Hline as [Hc' _].
      by apply negb_true_iff in Hc'. }
    cbv beta match. rewrite Hc', andb_false_r.
    change (String c' (x'' ++ String LF rest)%string)
      with (String c' x'' ++ String LF rest)%string.
    by rewrite IH.
Qed.

(** The same with a Windows line break. *)
Lemma splitLines_line_crlf x rest :
  singleLine x = true ->
  splitLines (x ++ String CR (String LF rest))%string = x :: splitLines rest.
Proof.
  induction x as [|c x' IH]; intros Hline; [done|].
  simpl in Hline. apply andb_true_iff in Hline as [Hc Hline].
  apply negb_true_iff in Hc.
  change (String c x' ++ String CR (String LF rest))%string
    with (String c (x' ++ String CR (String LF rest))%string).
  rewrite splitLines_eq, Hc. destruct x' as [|c' x''].
  - change ("" ++ String CR (String LF rest))%string with (String CR (String LF rest)).
    cbv beta match. replace (Ascii.eqb CR LF) with false by done. rewrite andb_false_r.
    change (String CR (String LF rest)) with ("" ++ String CR (String LF rest))%string.
    by rewrite (IH Hline).
  - change (String c' x'' ++ String CR (String LF rest))%string
      with (String c' (x'' ++ String CR (String LF rest))%string).
    assert (Hc' : Ascii.eqb c' LF = false).
    { simpl in Hline. apply andb_true_iff in Hline as [Hc' _].
      by apply negb_true_iff in Hc'. }
    cbv beta match. rewrite Hc', andb_false_r.
    change (String c' (x'' ++ String CR (String LF rest))%string)
      with (String c' x'' ++ String CR (String LF rest))%string.
    by rewrite (IH Hline).
Qed.

Lemma splitLines_last x : singleLine x = true -> splitLines x = [x].
Proof.
  induction x as [|c x' IH]; intros Hline; [done|].
  simpl in Hline. apply andb_true_iff in Hline as [Hc Hline].
  apply negb_true_iff in Hc. rewrite splitLines_eq, Hc.
  destruct x' as [|c' x'']; [done|].
  assert (Hc' : Ascii.eqb c' LF = false).
  { simpl in Hline. apply andb_true_iff in Hline as [Hc' _].
    by apply negb_true_iff in Hc'. }
  cbv beta match. by rewrite Hc', andb_false_r, (IH Hline).
Qed.

Lemma cleanLine_spec x :
  cleanLine x = true ->
  Nat.ltb 0 (String.length x) = true /\ trim x = x /\ singleLine x = true
  /\ trimEnd x = x.
Proof.
  unfold cleanLine. intros H.
  apply andb_true_iff in H as [H Hline]. apply andb_true_iff in H as [Hlen Htrim].
  apply String.eqb_eq in Htrim. repeat split; try done.
  rewrite <- Htrim at 1. unfold trim. rewrite trimEnd_idem. exact Htrim.
Qed.

Lemma splitLines_join (sep : string) (l : list string) :
  sep = newline \/ sep = String CR newline ->
  l <> [] ->
  Forall (fun x => cleanLine x = true) l ->
  splitLines (join sep l) = l.
Proof.
  intros Hsep. induction l as [|x l IH]; intros Hne Hl; [done|].
  apply Forall_cons in Hl as [Hx Hl].
  apply cleanLine_spec in Hx as (_ & _ & Hline & Hfixed).
  destruct l as [|y l]; [by apply splitLines_last|].
  change (join sep (x :: y :: l)) with (x ++ sep ++ join sep (y :: l))%string.
  destruct Hsep as [->| ->].
  - change (newline ++ join newline (y :: l))%string
      with (String LF (join newline (y :: l))).
    rewrite splitLines_line by done. f_equal. by apply IH.
  - change (String CR newline ++ join (String CR newline) (y :: l))%string
      with (String CR (String LF (join (String CR newline) (y :: l)))).
    rewrite splitLines_line_crlf by done. f_equal. by apply IH.
Qed.

Lemma phoneNumbersOfText_join (sep : string) (l : list string) :
  sep = newline \/ sep = String CR newline ->
  Forall (fun x => cleanLine x = true) l ->
  phoneNumbersOfText (join sep l) = l.
Proof.
  intros Hsep Hl. unfold phoneNumbersOfText.
  destruct l as [|x l]; [done|].
  rewrite (splitLines_join sep (x :: l)) by done.
  induction Hl as [|y k Hy Hk IH]; [done|].
  apply cleanLine_spec in Hy as (Hlen & Htrim & _).
  simpl. rewrite Htrim, Hlen. f_equal. exact IH.
Qed.

(** X14. The numbers read from a text file.  Whatever the text, every number
    read is a non-empty string with no white space at either end and no line
    break inside: blank lines are dropped and the others trimmed.  And a text
    made of such strings, one per line, with Unix or with Windows line
    breaks, is read back as exactly these strings, in order. *)
Theorem text_file_is_read_line_by_line :
  (forall text, Forall (fun x => cleanLine x = true) (phoneNumbersOfText text))
  /\ (forall l,
        Forall (fun x => cleanLine x = true) l ->
        phoneNumbersOfText (join newline l) = l
        /\ phoneNumbersOfText (join (String CR newline) l) = l).
Proof.
  split.
  - intros text. unfold phoneNumbersOfText. apply Forall_forall. intros x Hx.
    apply list_elem_of_In, filter_In in Hx as [Hx Hlen].
    apply in_map_iff in Hx as (y & <- & Hy).
    unfold cleanLine. rewrite Hlen, trim_idem, String.eqb_refl. simpl.
    unfold trim. apply singleLine_trimEnd, singleLine_trimStart.
    pose proof (splitLines_singleLine text) as Hall.
    rewrite Forall_forall in Hall. apply Hall. by apply list_elem_of_In.
  - intros l Hl. split; apply phoneNumbersOfText_join; auto.
Qed.

(** X15. Export and load again: if every exported number is a non-empty
    string with no white space at either end and no line break inside,
    loading the exported file as a text file gives one record per exported
    number, in the order of the export, with that number as its raw
    [number]. *)
Theorem exported_file_loads_back parser settings s :
  Forall (fun n => cleanLine (canonical n) = true)
         (List.filter (fun n => truthy (hasWhatsApp n)) (numbers s)) ->
  phoneNumbersOfText (exportResults s)
  = map canonical (List.filter (fun n => truthy (hasWhatsApp n)) (numbers s))
  /\ map number (handleFileUpload_text parser settings (exportResults s))
     = map canonical (List.filter (fun n => truthy (hasWhatsApp n)) (numbers s)).
Proof.
  intros Hclean.
  assert (H : phoneNumbersOfText (exportResults s)
              = map canonical (List.filter (fun n => truthy (hasWhatsApp n)) (numbers s))).
  { unfold exportResults. apply phoneNumbersOfText_join; [by left|].
    apply Forall_forall. intros x Hx.
    apply list_elem_of_In, in_map_iff in Hx as (n & <- & Hn).
    rewrite Forall_forall in Hclean. apply Hclean. by apply list_elem_of_In. }
  split; [done|].
  unfold handleFileUpload_text, processPhoneNumbers. rewrite H, map_map. simpl.
  apply map_id.
Qed.

(** The numbers of a record list with answers are exported and loaded again. *)
Lemma exported_file_loads_back_witness :
  map number
    (handleFileUpload_text scriptedParser initialFilterSettings
       (exportResults storeWithAnswers))
  = ["+221771234567"; "+33612345678"].
Proof.
  refine (proj2 (exported_file_loads_back scriptedParser initialFilterSettings
                   storeWithAnswers _)).
  vm_compute. by repeat constructor.
Defined.

(** ** The run *)

(** A run over at least one eligible record, in full. *)
Lemma startProcessing_eligible engineMessage s :
  eligible (numbers s) <> [] ->
  startProcessing engineMessage s
  = {| numbers := numbers s; isProcessing := false; progress := 0;
       pageError := Some (or_else (Some engineMessage)
                                  "An error occurred during processing");
       validatedCount := 0; totalValidNumbers := 0;
       abortControllerRef := None; trace := trace s |}.
Proof.
  intros Hsome. unfold startProcessing.
  rewrite decide_False; [reflexivity|].
  by destruct (eligible (numbers s)).
Qed.

Lemma numbers_startProcessing engineMessage s :
  numbers (startProcessing engineMessage s) = numbers s.
Proof. unfold startProcessing. by destruct (decide _). Qed.

Lemma trace_startProcessing engineMessage s :
  trace (startProcessing engineMessage s) = trace s.
Proof. unfold startProcessing. by destruct (decide _). Qed.

(** C1. A run over an eligible record makes no verification attempt at
    all, whatever the verification client would answer: the first statement
    of the [try] block throws.  The records are as they were, so that no
    eligible record is marked [Error], and the error of line 290 is the
    page's error message. *)
Theorem run_makes_no_attempt engineMessage s :
  eligible (numbers s) <> [] ->
  let s' := startProcessing engineMessage s in
  attempts (trace s') = attempts (trace s)
  /\ numbers s' = numbers s
  /\ (forall n, n ∈ eligible (numbers s) -> n ∈ numbers s' /\ status n <> Error)
  /\ pageError s' = Some (or_else (Some engineMessage)
                                  "An error occurred during processing")
  /\ isProcessing s' = false.
Proof.
  intros Hsome s'. unfold s'.
  rewrite trace_startProcessing, numbers_startProcessing.
  split; [done|]. split; [done|]. split.
  - intros n Hn. apply eligible_elem_of in Hn as (Hn & _ & Hst). by split.
  - by rewrite startProcessing_eligible.
Qed.

(** One valid number, the initial settings of three retries: no request is
    sent, the record is still [Pending]. *)
Lemma run_makes_no_attempt_witness :
  let s' := startProcessing v8Message (loadedPage initialFilterSettings ["+221771234567"]) in
  attempts (trace s') = 0
  /\ map status (numbers s') = [Pending]
  /\ pageError s' = Some v8Message.
Proof.
  destruct (run_makes_no_attempt v8Message
              (loadedPage initialFilterSettings ["+221771234567"]))
    as (Hattempts & Hnumbers & _ & Herror & _).
  - vm_compute. discriminate.
  - split; [exact Hattempts|]. split; [by rewrite Hnumbers|exact Herror].
Defined.



(** ** The page as a whole: results *)

Lemma processPhoneNumbers_asSeeded parser settings raws :
  Forall asSeeded (processPhoneNumbers parser settings raws).
Proof.
  apply Forall_forall. intros rec Hin. unfold processPhoneNumbers in Hin.
  apply list_elem_of_In, in_map_iff in Hin as (raw & <- & _). simpl.
  split; [done|].
  destruct (validatePhoneNumber_cases parser raw (defaultCountryCode settings))
    as [(pn & e164 & _ & _ & _ & ->)|[msg ->]]; simpl; [left|right]; by split.
Qed.

Lemma removeNumber_eq index (prev : list PhoneNumber) :
  removeNumber index prev = take index prev ++ drop (S index) prev.
Proof.
  pose proof (removeNumber_from 0 index prev) as H0.
  rewrite decide_False, Nat.sub_0_r in H0 by lia. exact H0.
Qed.

Lemma pageAfter_snoc parser engineMessage actions a :
  pageAfter parser engineMessage (actions ++ [a])
  = perform parser engineMessage a (pageAfter parser engineMessage actions).
Proof. unfold pageAfter. by rewrite fold_left_app. Qed.

(** Whatever the user does, the records of the page are as they were seeded,
    no run is active, and no collaborator has been called. *)
Lemma pageAfter_invariant parser engineMessage actions :
  let s := pageAfter parser engineMessage actions in
  Forall asSeeded (numbers s)
  /\ isProcessing s = false
  /\ abortControllerRef s = None
  /\ trace s = [].
Proof.
  induction actions as [|a actions IH] using rev_ind; [by repeat split|].
  rewrite pageAfter_snoc. simpl in IH. destruct IH as (Hseeded & Hproc & Href & Htrace).
  destruct a as [settings raws|index| | | |message]; simpl.
  - split; [apply processPhoneNumbers_asSeeded|done].
  - split; [|done]. rewrite removeNumber_eq. apply Forall_app.
    split; [by apply Forall_take|by apply Forall_drop].
  - rewrite numbers_startProcessing, trace_startProcessing.
    split; [done|]. unfold startProcessing. by destruct (decide _).
  - split; [done|]. split; [done|]. split; [|done]. by rewrite Href.
  - done.
  - done.
Qed.





(** C7. A record seeded as invalid is seeded with the status [Error].  In
    every state of the page such a record is [Error], is not in the
    snapshot a run takes, and is the same record at the same place after a
    run, which sends no batch to verification. *)
Theorem invalid_record_stays_error parser engineMessage :
  (forall settings raws n,
     n ∈ processPhoneNumbers parser settings raws -> isValid n <> Some true ->
     isValid n = Some false /\ status n = Error)
  /\ (forall actions j n,
        numbers (pageAfter parser engineMessage actions) !! j = Some n ->
        isValid n <> Some true ->
        status n = Error
        /\ (n ∉ eligible (numbers (pageAfter parser engineMessage actions)))
        /\ numbers (startProcessing engineMessage
                      (pageAfter parser engineMessage actions)) !! j = Some n
        /\ attempts (trace (startProcessing engineMessage
                              (pageAfter parser engineMessage actions))) = 0).
Proof.
  assert (Hinvalid : forall n, asSeeded n -> isValid n <> Some true ->
            isValid n = Some false /\ status n = Error).
  { intros n [_ [[Hv _]|[Hv Hst]]] Hnot; [done|by split]. }
  split.
  - intros settings raws n Hn. apply Hinvalid.
    pose proof (processPhoneNumbers_asSeeded parser settings raws) as Hall.
    rewrite Forall_forall in Hall. by apply Hall.
  - intros actions j n Hj Hnot.
    destruct (pageAfter_invariant parser engineMessage actions)
      as (Hseeded & _ & _ & Htrace). simpl in Hseeded, Htrace.
    rewrite Forall_forall in Hseeded.
    assert (Hn : n ∈ numbers (pageAfter parser engineMessage actions))
      by (by eapply list_elem_of_lookup_2).
    destruct (Hinvalid n (Hseeded n Hn) Hnot) as [Hfalse Herror].
    split; [done|]. split.
    + rewrite eligible_elem_of. intros (_ & Hvalid & _). congruence.
    + by rewrite numbers_startProcessing, trace_startProcessing, Htrace.
Qed.

(** C8. No run is ever active when [startProcessing] is called, and a call
    with an eligible record begins none: when it returns, the run is over,
    with [isProcessing] off, the abort controller dropped, the error of line
    290 as the page's error message, every record as it was and no
    collaborator called.  The function never looks at [isProcessing]. *)
Theorem start_begins_no_run parser engineMessage actions :
  let s := pageAfter parser engineMessage actions in
  isProcessing s = false
  /\ (eligible (numbers s) <> [] ->
      let s' := startProcessing engineMessage s in
      isProcessing s' = false
      /\ abortControllerRef s' = None
      /\ pageError s' = Some (or_else (Some engineMessage)
                                      "An error occurred during processing")
      /\ numbers s' = numbers s
      /\ trace s' = trace s
      /\ forall b, startProcessing engineMessage (setIsProcessing b s) = s').
Proof.
  intros s.
  destruct (pageAfter_invariant parser engineMessage actions) as (_ & Hproc & _).
  split; [exact Hproc|].
  intros Hsome s'. unfold s'.
  rewrite numbers_startProcessing, trace_startProcessing.
  rewrite (startProcessing_eligible engineMessage s Hsome).
  repeat split. intros b. by rewrite startProcessing_eligible.
Qed.

(** One valid number is loaded and Start is pressed. *)
Lemma start_begins_no_run_witness :
  let s' := startProcessing v8Message
              (pageAfter scriptedParser v8Message
                 [Load initialFilterSettings ["+221771234567"]]) in
  isProcessing s' = false
  /\ abortControllerRef s' = None
  /\ pageError s' = Some v8Message
  /\ map status (numbers s') = [Pending].
Proof.
  destruct (proj2 (start_begins_no_run scriptedParser v8Message
                     [Load initialFilterSettings ["+221771234567"]]))
    as (Hproc & Href & Herror & Hnumbers & _).
  - vm_compute. discriminate.
  - split; [exact Hproc|]. split; [exact Href|]. split; [exact Herror|].
    by rewrite Hnumbers.
Defined.

(** ** The export *)

Lemma concat_join (l : list string) : String.concat newline l = join newline l.
Proof.
  induction l as [|x l IH]; [done|]. destruct l as [|y l]; [done|].
  change (String.concat newline (x :: y :: l))
    with (x ++ newline ++ String.concat newline (y :: l))%string.
  by rewrite IH.
Qed.

Lemma exportReachable_exportable (l : list PhoneNumber) :
  Forall exportable l ->
  exportReachable l = map canonical (List.filter (fun n => truthy (hasWhatsApp n)) l).
Proof.
  induction 1 as [|n l Hn _ IH]; [done|]. simpl. unfold exportable in Hn.
  destruct (hasWhatsApp n) as [| |[|]|id] eqn:Hw; simpl; try done.
  destruct Hn as (c & Hc & Hne). rewrite Hc, IH. f_equal.
  unfold canonical, or_else. rewrite Hc.
  destruct (String.eqb c "") eqn:He; [|done]. by apply String.eqb_eq in He.
Qed.

Lemma asSeeded_exportable n : asSeeded n -> exportable n.
Proof. intros [Hnull _]. unfold exportable. by rewrite Hnull. Qed.

(** C9. The exported text is the newline-delimited list of the canonical
    numbers of the records with [reachable == true], in list order: in
    every state of the page, and for every record list in which
    [hasWhatsApp] is [true], [false] or [null] and a record with [true] has
    a canonical number.  For every record list it is the list of
    [normalizedNumber || number] over the records with a truthy
    [hasWhatsApp].  Exporting changes nothing: the state is the same
    after it, so that an export at any moment leaves the page where it
    would be without it, and the text depends on the records alone, so
    that a second export gives the same text. *)
Theorem exportResults_is_a_pure_read parser engineMessage :
  (forall actions,
     exportResults (pageAfter parser engineMessage actions)
     = String.concat newline
         (exportReachable (numbers (pageAfter parser engineMessage actions))))
  /\ (forall s, Forall exportable (numbers s) ->
        exportResults s = String.concat newline (exportReachable (numbers s)))
  /\ (forall s,
        exportResults s
        = String.concat newline
            (map (fun n => or_else (normalizedNumber n) (number n))
                 (List.filter (fun n => truthy (hasWhatsApp n)) (numbers s))))
  /\ (forall s, perform parser engineMessage Export s = s)
  /\ (forall before after,
        pageAfter parser engineMessage (before ++ Export :: after)
        = pageAfter parser engineMessage (before ++ after))
  /\ (forall s s', numbers s' = numbers s -> exportResults s' = exportResults s).
Proof.
  assert (Hspec : forall s, Forall exportable (numbers s) ->
            exportResults s = String.concat newline (exportReachable (numbers s))).
  { intros s Hs. unfold exportResults.
    rewrite (exportReachable_exportable _ Hs). symmetry. apply concat_join. }
  split.
  - intros actions. apply Hspec.
    destruct (pageAfter_invariant parser engineMessage actions) as (Hseeded & _).
    eapply Forall_impl; [exact Hseeded|]. apply asSeeded_exportable.
  - split; [exact Hspec|]. split.
    + intros s. unfold exportResults. symmetry. apply concat_join.
    + split; [done|]. split.
      * intros before after. unfold pageAfter. by rewrite !fold_left_app.
      * intros s s' Hs. unfold exportResults. by rewrite Hs.
Qed.

(** A record list with two numbers on WhatsApp. *)
Lemma exportResults_is_a_pure_read_witness :
  exportResults storeWithAnswers
  = String.concat newline ["+221771234567"; "+33612345678"].
Proof.
  rewrite (proj1 (proj2 (exportResults_is_a_pure_read scriptedParser v8Message))
             storeWithAnswers).
  - reflexivity.
  - repeat (apply Forall_cons; split;
              [first [exact I | eexists; split; [reflexivity|discriminate]]|]).
    apply Forall_nil_2.
Defined.
